(** * MeshTool: the command dispatcher and mesh registry of [mesh_tool.py]

    A shallow embedding of [MeshToolServer]: the registry [self.meshes], the
    dispatcher [process_command], its eleven handlers, and the loop of
    [handle_client] over the messages of a connection.  The geometry itself
    (trimesh, numpy, manifold3d, Blender, shapely, the file system) is not part
    of the program: it is an interface, the class [Kernel] below, and every
    general theorem holds for every implementation of it.

    Conventions of the embedding.
    - JSON numbers are idealised: integers are [Z], decimals are rationals.
    - Names are strings.  The registry is declared [Dict[str, Trimesh]]; a
      configuration entry read as a name, a shape kind, an operation kind, a
      format or a file name is read with [get_str], which sees a string or
      nothing.
    - Every handler stores a mesh object it has just built, so two names
      never share an object and the registry is a map from names to mesh
      contents.  A method that works in place on a stored object is written
      back under the object's name.  Of the methods the handlers call on a
      stored object only [process()] is such a method: trimesh documents it
      as removing infinite values and merging duplicate vertices of the
      mesh it is called on, and as returning [self].  [copy()] and
      [smoothed()] give new objects, and [apply_transform] and
      [apply_translation] are only ever called on those.
    - A library call that computes raises or returns; reading
      [len(mesh.vertices)], [len(mesh.faces)] and [mesh.bounds] does not
      raise. *)

From Stdlib Require Import QArith.
From stdpp Require Import gmap strings list fin_maps pretty.

Set Warnings "-register-all,-clear-no-such-hyp".
Open Scope string_scope.

(** ** Decoded JSON values *)

Inductive value :=
| VNone
| VBool (b : bool)
| VInt (z : Z)
| VFloat (q : Q)
| VStr (s : string)
| VList (l : list value)
| VDict (kv : list (string * value)).

(** A configuration object, [Dict[str, Any]]. *)
Abbreviation params := (gmap string value).

(** [params.get(k)] for an entry used as a string. *)
Definition get_str (p : params) (k : string) : option string :=
  match p !! k with
  | Some (VStr s) => Some s
  | _ => None
  end.

(** [params.get(k, d)] *)
Definition get (p : params) (k : string) (d : value) : value :=
  default d (p !! k).

(** ** Exceptions *)

Inductive exn :=
| ImportError (msg : string)
| Exception (msg : string).

(** [str(e)] *)
Definition str (e : exn) : string :=
  match e with
  | ImportError m => m
  | Exception m => m
  end.

Inductive result (A : Type) :=
| Ok (a : A)
| Raise (e : exn).
Arguments Ok {A} a.
Arguments Raise {A} e.

(** A raised exception skips the rest of the block it is raised in. *)
#[global] Instance result_bind : MBind result := λ A B k r,
  match r with
  | Ok a => k a
  | Raise e => Raise e
  end.

(** ** Strings *)

(** [needle in hay] on Python strings. *)
Fixpoint is_substring (needle hay : string) : bool :=
  String.prefix needle hay ||
  match hay with
  | EmptyString => false
  | String _ rest => is_substring needle rest
  end.

(** [s.endswith(suffix)] *)
Definition endswith (s suffix : string) : bool :=
  String.prefix (String.rev suffix) (String.rev s).

(** An f-string field holding a name that may be [None]. *)
Definition fmt (o : option string) : string :=
  match o with
  | Some s => s
  | None => "None"
  end.

(** [d[k]] lookups in a decoded JSON object kept as its list of entries. *)
Fixpoint assoc {A} (k : string) (kv : list (string * A)) : option A :=
  match kv with
  | [] => None
  | (k', v) :: rest => if decide (k = k') then Some v else assoc k rest
  end.

(** ** Python operators on decoded values *)

Definition is_str (k : string) (v : value) : bool :=
  match v with
  | VStr s => bool_decide (s = k)
  | _ => false
  end.

(** [k in v] *)
Definition py_in (k : string) (v : value) : result bool :=
  match v with
  | VDict kv => Ok (bool_decide (is_Some (assoc k kv)))
  | VList l => Ok (existsb (is_str k) l)
  | VStr s => Ok (is_substring k s)
  | _ => Raise (Exception "argument is not iterable")
  end.

(** [v[k]] with a string subscript *)
Definition py_getitem (v : value) (k : string) : result value :=
  match v with
  | VDict kv =>
      match assoc k kv with
      | Some x => Ok x
      | None => Raise (Exception k)
      end
  | _ => Raise (Exception "indices must be integers")
  end.

(** [isinstance(v, (int, float))]: the number when it is one. *)
Definition scalar_of (v : value) : option Q :=
  match v with
  | VBool b => Some (if b then 1 else 0)%Q
  | VInt z => Some (inject_Z z)
  | VFloat q => Some q
  | _ => None
  end.

(** A value used as an operand of float arithmetic. *)
Definition num_of (v : value) : result Q :=
  match scalar_of v with
  | Some q => Ok q
  | None => Raise (Exception "unsupported operand type(s)")
  end.

(** A value used as the argument of [range]. *)
Definition int_of (v : value) : result Z :=
  match v with
  | VBool b => Ok (if b then 1 else 0)%Z
  | VInt z => Ok z
  | _ => Raise (Exception "object cannot be interpreted as an integer")
  end.

(** ** Homogeneous 4x4 matrices, as the handlers build them *)

Definition matrix := list (list Q).

(** [np.eye(4)] *)
Definition eye4 : matrix :=
  [ [1; 0; 0; 0]; [0; 1; 0; 0]; [0; 0; 1; 0]; [0; 0; 0; 1] ]%Q.

Definition map_first3 {A} (f : A → A) (l : list A) : list A :=
  map f (take 3 l) ++ drop 3 l.

(** [transform[:3, :3] *= s] *)
Definition scale_block (s : Q) (t : matrix) : matrix :=
  map_first3 (map_first3 (fun x => x * s)%Q) t.

Definition set_cell (i j : nat) (x : Q) (t : matrix) : matrix :=
  alter (fun row => <[j := x]> row) i t.

(** [transform[0, 0] = x; transform[1, 1] = y; transform[2, 2] = z] *)
Definition set_diagonal (x y z : Q) (t : matrix) : matrix :=
  set_cell 2 2 z (set_cell 1 1 y (set_cell 0 0 x t)).

(** [scale_array = np.array(scale)] followed by the reads
    [scale_array[0]], [scale_array[1]], [scale_array[2]]. *)
Definition scale_entries (scale : value) : result (Q * Q * Q) :=
  match scale with
  | VList (x :: y :: z :: _) =>
      match scalar_of x, scalar_of y, scalar_of z with
      | Some a, Some b, Some c => Ok (a, b, c)
      | _, _, _ => Raise (Exception "setting an array element with a sequence")
      end
  | VList _ => Raise (Exception "index out of bounds")
  | _ => Raise (Exception "too many indices for array")
  end.

(** How a homogeneous matrix moves a point (the last row is not read). *)
Definition row_dot (row : list Q) (x y z : Q) : Q :=
  match row with
  | [a; b; c; d] => (a * x + b * y + c * z + d)%Q
  | _ => 0%Q
  end.

Definition transform_point (t : matrix) (pt : Q * Q * Q) : Q * Q * Q :=
  let '(x, y, z) := pt in
  match t with
  | [r0; r1; r2; _] => (row_dot r0 x y z, row_dot r1 x y z, row_dot r2 x y z)
  | _ => pt
  end.

(** ** The geometry libraries *)

(** What a boolean backend hands back: nothing, one mesh, a scene of named
    geometries (in the order of its keys), or an object of another kind. *)
Inductive bresult (M : Type) :=
| BNone
| BMesh (m : M)
| BScene (geometry : list (string * M))
| BOther.
Arguments BNone {M}.
Arguments BMesh {M} m.
Arguments BScene {M} geometry.
Arguments BOther {M}.

Class Kernel := {
  (** [trimesh.Trimesh] objects, [manifold3d.Manifold] objects, vertex
      arrays, and the JSON-ready data read off a mesh. *)
  Mesh : Type;
  Manifold : Type;
  Vertices : Type;
  Data : Type;
  (** [len(mesh.vertices)], [len(mesh.faces)], [mesh.bounds.tolist()] *)
  n_vertices : Mesh → nat;
  n_faces : Mesh → nat;
  bounds : Mesh → Data;
  (** [trimesh.primitives] and [trimesh.creation] *)
  Box : value → result Mesh;
  Sphere : value → value → result Mesh;
  Cylinder : value → value → value → result Mesh;
  Capsule : value → value → result Mesh;
  icosphere : value → value → result Mesh;
  extrude_polygon : value → value → result Mesh;
  Trimesh : Vertices → list (Z * Z * Z) → result Mesh;
  (** the numpy part of the torus: [linspace], [meshgrid], [cos], [sin] *)
  torus_vertices : value → value → value → value → result Vertices;
  (** [np.array(v).reshape(4, 4)] *)
  reshape44 : value → result matrix;
  (** [trimesh.transformations.rotation_matrix(angle, axis)] *)
  rotation_matrix : value → value → result matrix;
  (** [mesh.copy()] and the methods that change the receiver; each gives the
      receiver's new contents *)
  copy : Mesh → Mesh;
  apply_transform : matrix → Mesh → result Mesh;
  apply_translation : value → Mesh → result Mesh;
  (** [mesh.process()]: repairs the receiver in place and returns it *)
  process : Mesh → result Mesh;
  (** [mesh.smoothed()]: a new mesh, the receiver is left as it is *)
  smoothed : Mesh → result Mesh;
  (** [a + b] *)
  concatenate : Mesh → Mesh → Mesh;
  (** manifold3d: the import, [Manifold(Mesh(...))], [+], [-], [^],
      [to_mesh] and the [Trimesh] built from it *)
  import_manifold3d : result unit;
  to_manifold : Mesh → result Manifold;
  manifold_add : Manifold → Manifold → result Manifold;
  manifold_sub : Manifold → Manifold → result Manifold;
  manifold_xor : Manifold → Manifold → result Manifold;
  of_manifold : Manifold → result Mesh;
  (** [trimesh.interfaces.blender] *)
  blender_exists : bool;
  blender_boolean : Mesh → Mesh → string → result (bresult Mesh);
  (** [a.union(b)], [a.difference(b)], [a.intersection(b)] *)
  mesh_union : Mesh → Mesh → result (bresult Mesh);
  mesh_difference : Mesh → Mesh → result (bresult Mesh);
  mesh_intersection : Mesh → Mesh → result (bresult Mesh);
  (** [mesh.volume], [mesh.area], [mesh.is_watertight], [mesh.center_mass] *)
  volume : Mesh → result Data;
  area : Mesh → result Data;
  is_watertight : Mesh → result Data;
  center_mass : Mesh → result Data;
  (** [mesh.export(file_type=f)] encoded in base64, and the raw arrays *)
  export_b64 : Mesh → string → result Data;
  vertices_list : Mesh → Data;
  faces_list : Mesh → Data;
  normals_list : Mesh → Data;
  (** the file system: [os.makedirs], [os.path.join], [mesh.export(path)],
      [os.path.abspath], [os.path.getsize] *)
  makedirs : string → result unit;
  path_join : string → string → string;
  export_file : Mesh → string → result unit;
  abspath : string → string;
  getsize : string → result nat;
}.

(** ** Responses *)

Inductive field `{Kernel} :=
| FStr (s : string)
| FNat (n : nat)
| FData (d : Data)
| FSummaries (l : list (string * nat * nat * Data)).

(** [{"success": True, ...}] with its other entries, or
    [{"success": False, "error": ...}]. *)
Inductive response `{Kernel} :=
| Success (fields : list (string * field))
| Failure (error : string).

Definition is_success `{Kernel} (r : response) : bool :=
  match r with
  | Success _ => true
  | Failure _ => false
  end.

(** ** The server *)

Section Server.
Context `{K : Kernel}.

(** [self.meshes] *)
Abbreviation registry := (gmap string Mesh).

(** The entries every mesh-producing handler reports. *)
Definition summary (key id : string) (mesh : Mesh) : response :=
  Success [ (key, FStr id);
            ("vertices_count", FNat (n_vertices mesh));
            ("faces_count", FNat (n_faces mesh));
            ("bounds", FData (bounds mesh)) ].

(** [name in self.meshes], and [self.meshes[name]] when it is. *)
Definition find (reg : registry) (name : option string) : option (string * Mesh) :=
  match name with
  | Some id =>
      match reg !! id with
      | Some mesh => Some (id, mesh)
      | None => None
      end
  | None => None
  end.

(** The body of a handler inside its [try], which builds a mesh and only
    then stores it: [except Exception as e] answers with [str(e)] and the
    registry is as it was. *)
Definition store_or_fail (reg : registry) (key id : string) (built : result Mesh)
  : registry * response :=
  match built with
  | Ok mesh => (<[id := mesh]> reg, summary key id mesh)
  | Raise e => (reg, Failure (str e))
  end.

(** *** create_primitive *)

Definition primitive (p : params) (primitive_type : string) : option (result Mesh) :=
  if decide (primitive_type = "box") then
    Some (Box (get p "extents" (VList [VFloat 1; VFloat 1; VFloat 1])))
  else if decide (primitive_type = "sphere") then
    Some (Sphere (get p "radius" (VFloat 1)) (get p "subdivisions" (VInt 2)))
  else if decide (primitive_type = "cylinder") then
    Some (Cylinder (get p "radius" (VFloat 1)) (get p "height" (VFloat 2))
                   (get p "sections" (VInt 32)))
  else if decide (primitive_type = "capsule") then
    Some (Capsule (get p "radius" (VFloat 1)) (get p "height" (VFloat 2)))
  else None.

Definition create_primitive (reg : registry) (p : params) : registry * response :=
  let mesh_id := default ("mesh_" +:+ pretty (size reg)) (get_str p "mesh_id") in
  let primitive_type := default "box" (get_str p "type") in
  match primitive p primitive_type with
  | None => (reg, Failure ("Unknown primitive type: " +:+ primitive_type))
  | Some made =>
      store_or_fail reg "mesh_id" mesh_id
        (mesh ← made;
         match p !! "transform" with
         | Some t => transform_matrix ← reshape44 t;
                     apply_transform transform_matrix mesh
         | None => Ok mesh
         end)
  end.

(** *** boolean_operation *)

(** First tier: manifold3d. *)
Definition manifold_tier (mesh_a mesh_b : Mesh) (operation : string)
  : result (bresult Mesh) :=
  _ ← import_manifold3d;
  cube_manifold ← to_manifold mesh_a;
  cylinder_manifold ← to_manifold mesh_b;
  result_manifold ←
    (if decide (operation = "union") then
       manifold_add cube_manifold cylinder_manifold
     else if decide (operation = "difference") then
       manifold_sub cube_manifold cylinder_manifold
     else if decide (operation = "intersection") then
       manifold_xor cube_manifold cylinder_manifold
     else Raise (Exception ("Unknown operation: " +:+ operation)));
  res ← of_manifold result_manifold;
  Ok (BMesh res).

(** Second tier: Blender. *)
Definition blender_tier (mesh_a mesh_b : Mesh) (operation : string)
  : result (bresult Mesh) :=
  if blender_exists then blender_boolean mesh_a mesh_b operation
  else Raise (Exception "Blender not available").

(** Third tier: trimesh's own booleans. *)
Definition trimesh_tier (mesh_a mesh_b : Mesh) (operation : string)
  : result (bresult Mesh) :=
  if decide (operation = "union") then mesh_union mesh_a mesh_b
  else if decide (operation = "difference") then mesh_difference mesh_a mesh_b
  else if decide (operation = "intersection") then mesh_intersection mesh_a mesh_b
  else Raise (Exception ("Unknown operation: " +:+ operation)).

(** The [try] around Blender whose handler falls back to trimesh; the
    source has it twice, once under each handler of the first tier. *)
Definition blender_then_trimesh (mesh_a mesh_b : Mesh) (operation : string)
  : result (bresult Mesh) :=
  match blender_tier mesh_a mesh_b operation with
  | Ok res => Ok res
  | Raise blender_error => trimesh_tier mesh_a mesh_b operation
  end.

Definition cascade (mesh_a mesh_b : Mesh) (operation : string)
  : result (bresult Mesh) :=
  match manifold_tier mesh_a mesh_b operation with
  | Ok res => Ok res
  | Raise (ImportError _) => blender_then_trimesh mesh_a mesh_b operation
  | Raise (Exception _) => blender_then_trimesh mesh_a mesh_b operation
  end.

(** "Handle different result types": [None], a Scene, anything else. *)
Definition check_vertices (res : Mesh) : result Mesh :=
  if decide (n_vertices res = 0%nat) then
    Raise (Exception "Boolean operation produced empty result")
  else Ok res.

Definition normalize_result (res : bresult Mesh) : result Mesh :=
  match res with
  | BNone => Raise (Exception "Boolean operation produced None result")
  | BScene geometry =>
      match geometry with
      | [] => Raise (Exception "Boolean operation produced empty scene")
      | (first_geom_name, _) :: _ =>
          match assoc first_geom_name geometry with
          | Some first_geom => check_vertices first_geom
          | None => Raise (Exception first_geom_name)
          end
      end
  | BMesh m => check_vertices m
  | BOther => Raise (Exception "Boolean operation produced empty result")
  end.

(** The two [process()] calls that open the inner [try].  [process] works
    on the stored object itself, so what it did is visible in the registry;
    the locals [mesh_a] and [mesh_b] keep pointing at the two objects, which
    are one object when the two names are the same.  The result is the
    registry afterwards, the contents of the two operands afterwards, and
    the exception if one of the calls raised. *)
Definition normalize_operands (reg : registry) (a b : string) (mesh_a mesh_b : Mesh)
  : registry * (Mesh * Mesh) * result unit :=
  match process mesh_a with
  | Raise e => (reg, (mesh_a, mesh_b), Raise e)
  | Ok pa =>
      let reg1 := <[a := pa]> reg in
      let mesh_b1 := if decide (a = b) then pa else mesh_b in
      match process mesh_b1 with
      | Raise e => (reg1, (pa, mesh_b1), Raise e)
      | Ok pb =>
          let reg2 := <[b := pb]> reg1 in
          let mesh_a2 := if decide (a = b) then pb else pa in
          (reg2, (mesh_a2, pb), Ok ())
      end
  end.

(** The inner [try] block: normalisation, the cascade, and the checks on
    what the cascade handed back. *)
Definition attempt (reg : registry) (a b : string) (mesh_a mesh_b : Mesh)
    (operation : string) : registry * (Mesh * Mesh) * result Mesh :=
  let '(reg', (mesh_a', mesh_b'), normalized) :=
    normalize_operands reg a b mesh_a mesh_b in
  (reg', (mesh_a', mesh_b'),
   _ ← normalized;
   res ← cascade mesh_a' mesh_b' operation;
   normalize_result res).

(** [except Exception as bool_error]: the concatenation for a union, the
    error text of the failure response for anything else. *)
Definition fallback (operation : string) (mesh_a mesh_b : Mesh)
    (attempted : result Mesh) : string + Mesh :=
  match attempted with
  | Ok res => inr res
  | Raise bool_error =>
      if decide (operation = "union") then inr (concatenate mesh_a mesh_b)
      else inl ("Boolean " +:+ operation +:+ " failed: " +:+ str bool_error
                +:+ ". Manifold3d is installed but may have compatibility issues.")
  end.

(** The last check, and the store. *)
Definition commit (reg : registry) (result_id : string) (res : Mesh)
  : registry * response :=
  if decide (n_vertices res = 0%nat) then
    (reg, Failure "Boolean operation resulted in empty mesh")
  else (<[result_id := res]> reg, summary "result_id" result_id res).

Definition boolean_operation (reg : registry) (p : params) : registry * response :=
  let mesh_a_id := get_str p "mesh_a" in
  let mesh_b_id := get_str p "mesh_b" in
  let operation := default "union" (get_str p "operation") in
  let result_id := default ("result_" +:+ pretty (size reg)) (get_str p "result_id") in
  match find reg mesh_a_id, find reg mesh_b_id with
  | Some (a, mesh_a), Some (b, mesh_b) =>
      let '(reg', (mesh_a', mesh_b'), attempted) :=
        attempt reg a b mesh_a mesh_b operation in
      match fallback operation mesh_a' mesh_b' attempted with
      | inl error => (reg', Failure error)
      | inr res => commit reg' result_id res
      end
  | _, _ => (reg, Failure "One or both meshes not found")
  end.

(** *** extrude *)

Definition extrude_mesh (reg : registry) (p : params) : registry * response :=
  let mesh_id := default ("extruded_" +:+ pretty (size reg)) (get_str p "mesh_id") in
  let polygon_points :=
    get p "polygon" (VList [ VList [VInt 0; VInt 0]; VList [VInt 1; VInt 0];
                             VList [VInt 1; VInt 1]; VList [VInt 0; VInt 1] ]) in
  let height := get p "height" (VFloat 1) in
  store_or_fail reg "mesh_id" mesh_id (extrude_polygon polygon_points height).

(** *** bevel *)

(** [smoothed = mesh.smoothed()], the scale matrix, and
    [smoothed.apply_transform(transform)] on the new mesh. *)
Definition beveled (mesh : Mesh) (bevel_distance : value) : result Mesh :=
  smoothed_mesh ← smoothed mesh;
  d ← num_of bevel_distance;
  let scale_factor := (1 - d)%Q in
  let transform := scale_block scale_factor eye4 in
  apply_transform transform smoothed_mesh.

Definition bevel_mesh (reg : registry) (p : params) : registry * response :=
  let mesh_id := get_str p "mesh_id" in
  let bevel_distance := get p "distance" (VFloat (1 # 10)) in
  match find reg mesh_id with
  | None => (reg, Failure "Mesh not found")
  | Some (id, mesh) =>
      let result_id := default ("beveled_" +:+ id) (get_str p "result_id") in
      store_or_fail reg "result_id" result_id (beveled mesh bevel_distance)
  end.

(** *** transform_mesh *)

Definition translate_step (p : params) (mesh : Mesh) : result Mesh :=
  match p !! "translate" with
  | Some translation => apply_translation translation mesh
  | None => Ok mesh
  end.

Definition rotate_step (p : params) (mesh : Mesh) : result Mesh :=
  match p !! "rotate" with
  | Some rotation =>
      has_axis ← py_in "axis" rotation;
      has_angle ← (if has_axis then py_in "angle" rotation else Ok false);
      if has_axis && has_angle then
        axis ← py_getitem rotation "axis";
        angle ← py_getitem rotation "angle";
        rot ← rotation_matrix angle axis;
        apply_transform rot mesh
      else Ok mesh
  | None => Ok mesh
  end.

Definition scale_step (p : params) (mesh : Mesh) : result Mesh :=
  match p !! "scale" with
  | Some scale =>
      match scalar_of scale with
      | Some s => apply_transform (scale_block s eye4) mesh
      | None =>
          '(x, y, z) ← scale_entries scale;
          apply_transform (set_diagonal x y z eye4) mesh
      end
  | None => Ok mesh
  end.

(** The three steps on the local [mesh], in the order of the source. *)
Definition transformed (p : params) (mesh : Mesh) : result Mesh :=
  m1 ← translate_step p mesh;
  m2 ← rotate_step p m1;
  scale_step p m2.

Definition transform_mesh (reg : registry) (p : params) : registry * response :=
  let mesh_id := get_str p "mesh_id" in
  match find reg mesh_id with
  | None => (reg, Failure "Mesh not found")
  | Some (id, stored) =>
      let mesh := copy stored in
      let result_id := default ("transformed_" +:+ id) (get_str p "result_id") in
      store_or_fail reg "result_id" result_id (transformed p mesh)
  end.

(** *** create_complex_mesh *)

(** [range(n)] *)
Definition range (n : Z) : list Z :=
  Z.of_nat <$> seq 0 (Z.to_nat n).

Definition torus_faces (major_sections minor_sections : Z) : list (Z * Z * Z) :=
  i ← range (major_sections - 1);
  j ← range (minor_sections - 1);
  let idx := (i * minor_sections + j)%Z in
  [ (idx, idx + 1, idx + minor_sections);
    (idx + 1, idx + minor_sections + 1, idx + minor_sections) ]%Z.

Definition torus (p : params) : result Mesh :=
  let major_radius := get p "major_radius" (VFloat 1) in
  let minor_radius := get p "minor_radius" (VFloat (3 # 10)) in
  let major_sections := get p "major_sections" (VInt 32) in
  let minor_sections := get p "minor_sections" (VInt 16) in
  vertices ← torus_vertices major_radius minor_radius major_sections minor_sections;
  M ← int_of major_sections;
  N ← int_of minor_sections;
  Trimesh vertices (torus_faces M N).

Definition complex (p : params) (mesh_type : option string) : option (result Mesh) :=
  if decide (mesh_type = Some "torus") then Some (torus p)
  else if decide (mesh_type = Some "icosphere") then
    Some (icosphere (get p "subdivisions" (VInt 2)) (get p "radius" (VFloat 1)))
  else None.

Definition create_complex_mesh (reg : registry) (p : params) : registry * response :=
  let mesh_id := default ("complex_" +:+ pretty (size reg)) (get_str p "mesh_id") in
  let mesh_type := get_str p "type" in
  match complex p mesh_type with
  | None => (reg, Failure ("Unknown complex mesh type: " +:+ fmt mesh_type))
  | Some made => store_or_fail reg "mesh_id" mesh_id made
  end.

(** *** get_mesh_info, export_mesh, save_mesh_file, list_meshes, delete_mesh *)

(** A handler that only reads: the answer, or [str(e)]. *)
Definition answer (reg : registry) (r : result response) : registry * response :=
  match r with
  | Ok resp => (reg, resp)
  | Raise e => (reg, Failure (str e))
  end.

Definition get_mesh_info (reg : registry) (p : params) : registry * response :=
  let mesh_id := get_str p "mesh_id" in
  match find reg mesh_id with
  | None => (reg, Failure "Mesh not found")
  | Some (id, mesh) =>
      answer reg
        (v ← volume mesh;
         s ← area mesh;
         w ← is_watertight mesh;
         c ← center_mass mesh;
         Ok (Success [ ("mesh_id", FStr id);
                       ("vertices_count", FNat (n_vertices mesh));
                       ("faces_count", FNat (n_faces mesh));
                       ("bounds", FData (bounds mesh));
                       ("volume", FData v);
                       ("surface_area", FData s);
                       ("is_watertight", FData w);
                       ("center_mass", FData c) ]))
  end.

Definition export_mesh (reg : registry) (p : params) : registry * response :=
  let mesh_id := get_str p "mesh_id" in
  let format_type := default "obj" (get_str p "format") in
  match find reg mesh_id with
  | None => (reg, Failure "Mesh not found")
  | Some (id, mesh) =>
      answer reg
        (encoded_data ← export_b64 mesh format_type;
         Ok (Success [ ("mesh_id", FStr id);
                       ("format", FStr format_type);
                       ("data", FData encoded_data);
                       ("vertices", FData (vertices_list mesh));
                       ("faces", FData (faces_list mesh));
                       ("normals", FData (normals_list mesh)) ]))
  end.

(** "Generate filename if not provided", and the suffix otherwise. *)
Definition file_name (filename : option string) (id format_type : string) : string :=
  match filename with
  | None | Some "" => id +:+ "." +:+ format_type
  | Some f =>
      if endswith f ("." +:+ format_type) then f
      else f +:+ "." +:+ format_type
  end.

Definition save_mesh_file (reg : registry) (p : params) : registry * response :=
  let mesh_id := get_str p "mesh_id" in
  let filename := get_str p "filename" in
  let format_type := default "glb" (get_str p "format") in
  let output_dir := default "./output" (get_str p "output_dir") in
  match find reg mesh_id with
  | None => (reg, Failure "Mesh not found")
  | Some (id, mesh) =>
      answer reg
        (_ ← makedirs output_dir;
         let filepath := path_join output_dir (file_name filename id format_type) in
         _ ← export_file mesh filepath;
         file_size ← getsize filepath;
         Ok (Success [ ("mesh_id", FStr id);
                       ("filepath", FStr (abspath filepath));
                       ("format", FStr format_type);
                       ("file_size", FNat file_size) ]))
  end.

(** The entries come in the order of the map; the order of insertion is
    not kept by this model of the registry. *)
Definition list_meshes (reg : registry) : registry * response :=
  let mesh_list :=
    (fun '(mesh_id, mesh) => (mesh_id, n_vertices mesh, n_faces mesh, bounds mesh))
      <$> map_to_list reg in
  (reg, Success [ ("meshes", FSummaries mesh_list);
                  ("total_count", FNat (size reg)) ]).

Definition delete_mesh (reg : registry) (p : params) : registry * response :=
  let mesh_id := get_str p "mesh_id" in
  match find reg mesh_id with
  | None => (reg, Failure "Mesh not found")
  | Some (id, _) =>
      (delete id reg,
       Success [ ("message", FStr ("Mesh " +:+ id +:+ " deleted successfully")) ])
  end.

(** *** process_command *)

(** A decoded message: [data.get("command")] and [data.get("params")]. *)
Record message := Message {
  command : option string;
  message_params : option params;
}.

Definition process_command (reg : registry) (data : message) : registry * response :=
  let cmd := command data in
  let p := default ∅ (message_params data) in
  if decide (cmd = Some "create_primitive") then create_primitive reg p
  else if decide (cmd = Some "boolean_operation") then boolean_operation reg p
  else if decide (cmd = Some "extrude") then extrude_mesh reg p
  else if decide (cmd = Some "bevel") then bevel_mesh reg p
  else if decide (cmd = Some "get_mesh_info") then get_mesh_info reg p
  else if decide (cmd = Some "export_mesh") then export_mesh reg p
  else if decide (cmd = Some "save_mesh_file") then save_mesh_file reg p
  else if decide (cmd = Some "list_meshes") then list_meshes reg
  else if decide (cmd = Some "delete_mesh") then delete_mesh reg p
  else if decide (cmd = Some "transform_mesh") then transform_mesh reg p
  else if decide (cmd = Some "create_complex_mesh") then create_complex_mesh reg p
  else (reg, Failure ("Unknown command: " +:+ fmt cmd)).

End Server.

(** ** A small kernel to run the server on

    Meshes are vertex and triangle lists over the rationals, with the
    operations the handlers call as the geometry libraries document them:
    [process] merges duplicate vertices, [smoothed] gives every triangle its
    own three vertices, [+] appends, a transform moves every vertex.  No
    manifold3d is installed; whether Blender is, and what it answers, is the
    parameter [blender]; trimesh's own booleans have no engine to call. *)

Module Toy.

Definition point := (Q * Q * Q)%type.

Record mesh := Build {
  vertices : list point;
  faces : list (nat * nat * nat);
}.

Definition engine := mesh → mesh → string → result (bresult mesh).

Definition point_eqb (a b : point) : bool :=
  let '(x, y, z) := a in
  let '(x', y', z') := b in
  Qeq_bool x x' && Qeq_bool y y' && Qeq_bool z z'.

(** The position of the first vertex equal to [v]. *)
Fixpoint index_of (v : point) (l : list point) : nat :=
  match l with
  | [] => 0
  | w :: rest => if point_eqb v w then 0 else S (index_of v rest)
  end.

Fixpoint merge (seen l : list point) : list point :=
  match l with
  | [] => seen
  | v :: rest =>
      if existsb (point_eqb v) seen then merge seen rest
      else merge (seen ++ [v]) rest
  end.

Definition merge_vertices (m : mesh) : mesh :=
  let merged := merge [] (vertices m) in
  let remap i :=
    match vertices m !! i with
    | Some v => index_of v merged
    | None => i
    end in
  Build merged ((fun '(a, b, c) => (remap a, remap b, remap c)) <$> faces m).

Definition corner (m : mesh) (i : nat) : point :=
  default (0, 0, 0)%Q (vertices m !! i).

Definition smooth_shade (m : mesh) : mesh :=
  Build (flat_map (fun '(a, b, c) => [corner m a; corner m b; corner m c]) (faces m))
        (imap (fun i _ => (3 * i, 3 * i + 1, 3 * i + 2)%nat) (faces m)).

Definition append (a b : mesh) : mesh :=
  let n := length (vertices a) in
  Build (vertices a ++ vertices b)
        (faces a ++ ((fun '(i, j, k) => (n + i, n + j, n + k)%nat) <$> faces b)).

Definition move (t : matrix) (m : mesh) : mesh :=
  Build (transform_point t <$> vertices m) (faces m).

Definition translate (v : value) (m : mesh) : result mesh :=
  match v with
  | VList [x; y; z] =>
      match scalar_of x, scalar_of y, scalar_of z with
      | Some dx, Some dy, Some dz =>
          Ok (Build ((fun '(a, b, c) => (a + dx, b + dy, c + dz)%Q) <$> vertices m)
                    (faces m))
      | _, _, _ => Raise (Exception "could not convert to float")
      end
  | _ => Raise (Exception "Translation must be (3,)!")
  end.

Definition box (extents : value) : result mesh :=
  match scale_entries extents with
  | Ok (x, y, z) =>
      let h q := (q / 2)%Q in
      Ok (Build [ (- h x, - h y, - h z); (- h x, - h y, h z);
                  (- h x, h y, - h z); (- h x, h y, h z);
                  (h x, - h y, - h z); (h x, - h y, h z);
                  (h x, h y, - h z); (h x, h y, h z) ]%Q
                [ (1, 3, 0); (4, 1, 0); (0, 3, 2); (2, 4, 0); (1, 7, 3); (5, 1, 4);
                  (5, 7, 1); (3, 7, 2); (6, 4, 2); (2, 7, 6); (6, 5, 4); (7, 5, 6) ]%nat)
  | Raise e => Raise e
  end.

Fixpoint numbers (l : list value) : option (list Q) :=
  match l with
  | [] => Some []
  | v :: rest =>
      match scalar_of v, numbers rest with
      | Some q, Some qs => Some (q :: qs)
      | _, _ => None
      end
  end.

Definition reshape (v : value) : result matrix :=
  match v with
  | VList l =>
      match numbers l with
      | Some [a; b; c; d; e; f; g; h; i; j; k; l; m; n; o; p] =>
          Ok [ [a; b; c; d]; [e; f; g; h]; [i; j; k; l]; [m; n; o; p] ]
      | _ => Raise (Exception "cannot reshape array into shape (4,4)")
      end
  | _ => Raise (Exception "cannot reshape array into shape (4,4)")
  end.

(** Only the rotation by the angle zero has rational entries. *)
Definition rotation (angle axis : value) : result matrix :=
  match scalar_of angle with
  | Some a => if Qeq_bool a 0 then Ok eye4
              else Raise (Exception "rotation by an angle other than 0")
  | None => Raise (Exception "must be real number")
  end.

Definition extent (m : mesh) : list Q :=
  match vertices m with
  | [] => []
  | (x, y, z) :: rest =>
      let lo a b := if Qle_bool a b then a else b in
      let hi a b := if Qle_bool a b then b else a in
      let '(x0, y0, z0, x1, y1, z1) :=
        fold_left (fun '(x0, y0, z0, x1, y1, z1) '(a, b, c) =>
                     (lo x0 a, lo y0 b, lo z0 c, hi x1 a, hi y1 b, hi z1 c))
                  rest (x, y, z, x, y, z) in
      [x0; y0; z0; x1; y1; z1]
  end.

(** The same vertices, up to the value of the rationals. *)
Definition same_vertices (a b : mesh) : bool :=
  bool_decide (length (vertices a) = length (vertices b))
  && forallb (fun '(v, w) => point_eqb v w) (zip (vertices a) (vertices b)).

Definition unavailable {A} (what : string) : result A :=
  Raise (Exception (what +:+ " is not available in this kernel")).

Definition no_engine {A} : result A :=
  Raise (Exception "No backends available for boolean operations!").

#[local] Instance kernel (blender : option engine) : Kernel := {|
  Mesh := mesh;
  Manifold := Empty_set;
  Vertices := list point;
  Data := list Q;
  n_vertices m := length (vertices m);
  n_faces m := length (faces m);
  bounds := extent;
  Box := box;
  Sphere _ _ := unavailable "Sphere";
  Cylinder _ _ _ := unavailable "Cylinder";
  Capsule _ _ := unavailable "Capsule";
  icosphere _ _ := unavailable "icosphere";
  extrude_polygon _ _ := unavailable "extrude_polygon";
  Trimesh vs fs :=
    Ok (merge_vertices
          (Build vs ((fun '(a, b, c) => (Z.to_nat a, Z.to_nat b, Z.to_nat c)) <$> fs)));
  torus_vertices _ _ _ _ := unavailable "cos";
  reshape44 := reshape;
  rotation_matrix := rotation;
  copy m := m;
  apply_transform t m := Ok (move t m);
  apply_translation := translate;
  process m := Ok (merge_vertices m);
  smoothed m := Ok (smooth_shade m);
  concatenate := append;
  import_manifold3d := Raise (ImportError "No module named 'manifold3d'");
  to_manifold _ := unavailable "manifold3d";
  manifold_add a _ := match a with end;
  manifold_sub a _ := match a with end;
  manifold_xor a _ := match a with end;
  of_manifold a := match a with end;
  blender_exists := bool_decide (is_Some blender);
  blender_boolean a b operation :=
    match blender with
    | Some run => run a b operation
    | None => unavailable "Blender"
    end;
  mesh_union _ _ := no_engine;
  mesh_difference _ _ := no_engine;
  mesh_intersection _ _ := no_engine;
  volume _ := unavailable "volume";
  area _ := unavailable "area";
  is_watertight _ := unavailable "is_watertight";
  center_mass _ := unavailable "center_mass";
  export_b64 _ _ := unavailable "export";
  vertices_list _ := [];
  faces_list _ := [];
  normals_list _ := [];
  makedirs _ := Ok ();
  path_join dir name := dir +:+ "/" +:+ name;
  export_file _ _ := Ok ();
  abspath path := path;
  getsize _ := Ok 0%nat;
|}.

End Toy.

(** ** Sessions on the small kernel *)

Module Session.

(** A host without manifold3d and without Blender. *)
Definition bare : Kernel := Toy.kernel None.




(** [create_primitive] of a unit box [b1]. *)
Definition one_box : gmap string Toy.mesh :=
  (@create_primitive bare ∅ {[ "mesh_id" := VStr "b1" ]}).1.

(** Then a box [b2] of extents 2. *)
Definition two_boxes : gmap string Toy.mesh :=
  (@create_primitive bare one_box
     {[ "mesh_id" := VStr "b2";
        "extents" := VList [VInt 2; VInt 2; VInt 2] ]}).1.

(** [bevel] of [b1], stored as [beveled_b1]. *)
Definition box_and_bevel : gmap string Toy.mesh :=
  (@bevel_mesh bare one_box {[ "mesh_id" := VStr "b1" ]}).1.

Definition operands (a b : string) : params :=
  {[ "mesh_a" := VStr a; "mesh_b" := VStr b; "result_id" := VStr "r" ]}.

Definition vertex_count (reg : gmap string Toy.mesh) (id : string) : option nat :=
  (fun m => length (Toy.vertices m)) <$> reg !! id.

(** The message of a boolean_operation. *)
Definition boolean (p : params) : message :=
  Message (Some "boolean_operation") (Some p).

(** Two boxes under generated names, the first one deleted: the registry
    holds [mesh_1] alone. *)
Definition after_delete : gmap string Toy.mesh :=
  let r1 := (@create_primitive bare ∅ ∅).1 in
  let r2 := (@create_primitive bare r1 ∅).1 in
  (@delete_mesh bare r2 {[ "mesh_id" := VStr "mesh_0" ]}).1.

Definition moved : params := {[ "translate" := VList [VInt 1; VInt 0; VInt 0] ]}.
Definition doubled : params := {[ "scale" := VInt 2 ]}.

(** [transform_mesh] of [b1] with the configuration [p], stored as [t]. *)
Definition transform (reg : gmap string Toy.mesh) (source : string) (p : params)
  : gmap string Toy.mesh :=
  (@transform_mesh bare reg
     (<["mesh_id" := VStr source]> (<["result_id" := VStr "t"]> p))).1.

End Session.

(** ** Vocabulary of the specification *)

(** The command names [process_command] knows. *)
Definition recognized : list string :=
  [ "create_primitive"; "boolean_operation"; "extrude"; "bevel"; "get_mesh_info";
    "export_mesh"; "save_mesh_file"; "list_meshes"; "delete_mesh"; "transform_mesh";
    "create_complex_mesh" ].






Definition point_eq (a b : Q * Q * Q) : Prop :=
  let '(x, y, z) := a in
  let '(x', y', z') := b in
  (x == x' ∧ y == y' ∧ z == z')%Q.

(** ** The connection *)

(** What [json.loads] makes of a text message: it raises [JSONDecodeError],
    or it gives a JSON value that is not an object, [type_name] being the
    name of its Python type (list, str, int, float, bool, NoneType), or it
    gives an object. *)
Inductive frame :=
| Garbled
| NotObject (type_name : string)
| Object (data : message).

(** What is sent back: the text of a response, or one of the two error
    objects of [handle_client]; the second one has a [traceback] entry next
    to the error, and the text of that entry is not part of the model. *)
Inductive outbound :=
| Text (json : string)
| Error (error : string)
| ErrorWithTraceback (error : string).

Section Connection.
Context `{K : Kernel}.

(** [json.dumps] on a response. *)
Variable dumps : response → result string.

(** The body of the loop of [handle_client].  [data.get] on a value that
    is not an object raises [AttributeError], and so may [json.dumps]
    raise: both land in [except Exception]. *)
Definition handle_message (reg : gmap string Mesh) (f : frame)
  : gmap string Mesh * outbound :=
  match f with
  | Garbled => (reg, Error "Invalid JSON format")
  | NotObject type_name =>
      (reg, ErrorWithTraceback
              ("'" +:+ type_name +:+ "' object has no attribute 'get'"))
  | Object data =>
      let '(reg', response) := process_command reg data in
      match dumps response with
      | Ok text => (reg', Text text)
      | Raise e => (reg', ErrorWithTraceback (str e))
      end
  end.

(** [async for message in websocket], over the messages that come in while
    the connection is open. *)
Fixpoint handle_client (reg : gmap string Mesh) (frames : list frame)
  : gmap string Mesh * list outbound :=
  match frames with
  | [] => (reg, [])
  | f :: rest =>
      let '(reg1, sent) := handle_message reg f in
      let '(reg2, more) := handle_client reg1 rest in
      (reg2, sent :: more)
  end.

End Connection.

(** ** Vocabulary of the further properties *)

(** The mesh a response reports: its name, under [mesh_id] or under
    [result_id], with its two counts. *)
Definition reported `{Kernel} (fields : list (string * field))
  : option (string * nat * nat) :=
  let name :=
    match assoc "mesh_id" fields with
    | Some x => Some x
    | None => assoc "result_id" fields
    end in
  match name, assoc "vertices_count" fields, assoc "faces_count" fields with
  | Some (FStr id), Some (FNat v), Some (FNat f) => Some (id, v, f)
  | _, _, _ => None
  end.

(** The summaries in a response of list_meshes, and the names in them. *)
Definition summaries `{Kernel} (r : response) : list (string * nat * nat * Data) :=
  match r with
  | Success fields =>
      match assoc "meshes" fields with
      | Some (FSummaries l) => l
      | _ => []
      end
  | Failure _ => []
  end.

Definition names `{Kernel} (r : response) : list string :=
  (fun '(mesh_id, _, _, _) => mesh_id) <$> summaries r.

(** The text of the failure that ends a boolean operation whose backends
    have all raised. *)
Definition boolean_failure (operation error : string) : string :=
  "Boolean " +:+ operation +:+ " failed: " +:+ error
  +:+ ". Manifold3d is installed but may have compatibility issues.".

(** The first of a sequence of results that is not a raised exception, and
    the last exception when there is none. *)
Fixpoint first_success {A} (first : result A) (others : list (result A))
  : result A :=
  match first, others with
  | Ok a, _ => Ok a
  | Raise e, [] => Raise e
  | Raise _, next :: rest => first_success next rest
  end.

(** The commands that only read the registry. *)
Definition readers : list string :=
  [ "get_mesh_info"; "export_mesh"; "save_mesh_file"; "list_meshes" ].

(** The commands that name their result themselves when the caller does
    not, from the size of the registry, and the prefixes they use. *)
Definition creators : list string :=
  [ "create_primitive"; "extrude"; "create_complex_mesh" ].



Definition is_object (f : frame) : bool :=
  match f with
  | Object _ => true
  | _ => false
  end.

Definition deletes (f : frame) : Prop :=
  match f with
  | Object data => command data = Some "delete_mesh"
  | _ => False
  end.

(** ** Messages for the small kernel *)

Module Dialogue.

Import Session.


Definition command_of (cmd : string) (p : params) : message :=
  Message (Some cmd) (Some p).

Definition on_b1 : params := {[ "mesh_id" := VStr "b1" ]}.

(** A [json.dumps] that never raises. *)
Definition plain_dumps : @response bare → result string :=
  fun _ => Ok "{}".

(** A text that is not JSON, a command without configuration, and a JSON
    list. *)
Definition three_frames : list frame :=
  [ Garbled; Object (Message (Some "create_primitive") None); NotObject "list" ].

End Dialogue.

(** ** Properties *)


(** Membership in a list that is written out. *)
Ltac listed :=
  simpl; repeat first [apply list_elem_of_here | apply list_elem_of_further].

(** A decidable proposition that evaluates to true. *)
Ltac evaluated := apply (bool_decide_unpack _); vm_compute; reflexivity.

Section Properties.
Context `{K : Kernel}.
Implicit Types (reg : gmap string Mesh) (p : params) (name : option string).


Lemma find_Some reg name id mesh :
  find reg name = Some (id, mesh) ↔ name = Some id ∧ reg !! id = Some mesh.
Proof.
  destruct name as [i|]; simpl; [destruct (reg !! i) eqn:E|];
    split; try (intros [??]); try intros ?; by simplify_eq.
Qed.

Lemma find_registered reg id mesh :
  reg !! id = Some mesh → find reg (Some id) = Some (id, mesh).
Proof. intros H. by apply find_Some. Qed.



(** C7.  A command name that is not one of the eleven known ones, or no
    command name at all, is answered with a failure whose error text is
    "Unknown command: " followed by the name (by [None] when there is none),
    and the registry is returned as it was. *)
Theorem C7_unknown_command reg (data : message) :
  command data ∉ (Some <$> recognized) →
  process_command reg data
  = (reg, Failure ("Unknown command: " +:+ fmt (command data))).
Proof.
  intros Hno. unfold process_command. cbv zeta.
  repeat (let E := fresh "E" in
          case_decide as E;
          [exfalso; apply Hno; rewrite E; unfold recognized; listed|]).
  done.
Qed.


(** *** The boolean cascade *)


(** The two handlers of the first tier do the same. *)
Lemma cascade_tiers mesh_a mesh_b operation :
  cascade mesh_a mesh_b operation
  = match manifold_tier mesh_a mesh_b operation with
    | Ok res => Ok res
    | Raise _ => blender_then_trimesh mesh_a mesh_b operation
    end.
Proof. unfold cascade. by destruct (manifold_tier _ _ _) as [|[]]. Qed.

Lemma normalize_operands_dom reg a b mesh_a mesh_b reg' operands outcome :
  reg !! a = Some mesh_a → reg !! b = Some mesh_b →
  normalize_operands reg a b mesh_a mesh_b = (reg', operands, outcome) →
  dom reg' = dom reg.
Proof.
  intros Ha Hb. unfold normalize_operands.
  assert (Hda : a ∈ dom reg) by (apply elem_of_dom; eauto).
  assert (Hdb : b ∈ dom reg) by (apply elem_of_dom; eauto).
  destruct (process mesh_a); [|by intros [= <- <- <-]].
  destruct (process _); intros [= <- <- <-]; rewrite ?dom_insert_L; set_solver.
Qed.


(** What the operands are after normalisation when the two names differ. *)
Lemma normalize_operands_distinct reg a b mesh_a mesh_b pa pb :
  a ≠ b → process mesh_a = Ok pa → process mesh_b = Ok pb →
  normalize_operands reg a b mesh_a mesh_b
  = (<[b := pb]> (<[a := pa]> reg), (pa, pb), Ok ()).
Proof.
  intros Hne Ha Hb. unfold normalize_operands. rewrite Ha. cbv zeta.
  destruct (decide (a = b)); [done|]. by rewrite Hb.
Qed.

Lemma attempt_normalize reg a b mesh_a mesh_b operation reg' operands outcome :
  normalize_operands reg a b mesh_a mesh_b = (reg', operands, outcome) →
  attempt reg a b mesh_a mesh_b operation
  = (reg', operands,
     _ ← outcome; res ← cascade operands.1 operands.2 operation;
     normalize_result res).
Proof. unfold attempt. intros ->. by destruct operands. Qed.

(** [boolean_operation] once both operands are found. *)
Lemma boolean_operation_found reg p a b mesh_a mesh_b reg' mesh_a' mesh_b' attempted :
  get_str p "mesh_a" = Some a → reg !! a = Some mesh_a →
  get_str p "mesh_b" = Some b → reg !! b = Some mesh_b →
  attempt reg a b mesh_a mesh_b (default "union" (get_str p "operation"))
  = (reg', (mesh_a', mesh_b'), attempted) →
  boolean_operation reg p
  = match fallback (default "union" (get_str p "operation")) mesh_a' mesh_b' attempted with
    | inl error => (reg', Failure error)
    | inr res =>
        commit reg' (default ("result_" +:+ pretty (size reg)) (get_str p "result_id")) res
    end.
Proof.
  intros Ha Hma Hb Hmb Hatt. unfold boolean_operation.
  rewrite Ha, Hb. simpl. by rewrite Hma, Hmb, Hatt.
Qed.

Lemma commit_outcome reg result_id res reg' resp :
  commit reg result_id res = (reg', resp) →
  (reg' = reg ∧ resp = Failure "Boolean operation resulted in empty mesh"
   ∧ n_vertices res = 0%nat)
  ∨ (reg' = <[result_id := res]> reg ∧ resp = summary "result_id" result_id res
     ∧ n_vertices res ≠ 0%nat).
Proof. unfold commit. case_decide; intros [= <- <-]; eauto. Qed.

(** Every way [boolean_operation] can end: a failure with the keys of the
    registry as they were, or a mesh with at least one vertex stored under
    the result name on top of a registry with the same keys. *)
Lemma boolean_operation_outcome reg p reg' resp :
  boolean_operation reg p = (reg', resp) →
  (∃ error, resp = Failure error ∧ dom reg' = dom reg)
  ∨ (∃ reg1 res,
       let result_id := default ("result_" +:+ pretty (size reg)) (get_str p "result_id") in
       dom reg1 = dom reg ∧ n_vertices res ≠ 0%nat
       ∧ reg' = <[result_id := res]> reg1
       ∧ resp = summary "result_id" result_id res).
Proof.
  unfold boolean_operation.
  destruct (find reg (get_str p "mesh_a")) as [[a mesh_a]|] eqn:Ea;
    [|intros [= <- <-]; eauto].
  destruct (find reg (get_str p "mesh_b")) as [[b mesh_b]|] eqn:Eb;
    [|intros [= <- <-]; eauto].
  apply find_Some in Ea as [_ Ha]. apply find_Some in Eb as [_ Hb].
  unfold attempt.
  destruct (normalize_operands _ _ _ _ _) as [[reg1 [mesh_a' mesh_b']] outcome] eqn:En.
  pose proof (normalize_operands_dom _ _ _ _ _ _ _ _ Ha Hb En) as Hdom.
  destruct (fallback _ _ _ _) as [error|res]; [intros [= <- <-]; eauto|].
  intros [(-> & -> & _)|(-> & -> & Hn)]%commit_outcome; [eauto|].
  right. by exists reg1, res.
Qed.




(** *** Transformations *)


Lemma set_diagonal_acts a b c x y z :
  point_eq (transform_point (set_diagonal a b c eye4) (x, y, z))
           (a * x, b * y, c * z)%Q.
Proof. simpl. repeat split; ring. Qed.

Lemma store_or_fail_frame reg key id built k :
  k ≠ id → (store_or_fail reg key id built).1 !! k = reg !! k.
Proof.
  intros Hne. unfold store_or_fail. destruct built; simpl; [|done].
  by rewrite lookup_insert_ne.
Qed.



(** *** Failures and stores of the other handlers *)


Lemma answer_registry reg r : (answer reg r).1 = reg.
Proof. unfold answer. by destruct r. Qed.


(** A handler that stores a mesh binds the name to it whether or not the
    name was bound before, and touches no other name. *)
Lemma store_replaces reg key id mesh :
  store_or_fail reg key id (Ok mesh) = (<[id := mesh]> reg, summary key id mesh)
  ∧ <[id := mesh]> reg !! id = Some mesh
  ∧ ∀ k, k ≠ id → <[id := mesh]> reg !! k = reg !! k.
Proof.
  repeat split; [apply lookup_insert_eq|].
  intros k Hk. by apply lookup_insert_ne.
Qed.

End Properties.

(** ** The theorems at work on the small kernel *)

Import Session.


Lemma C7_witness :
  @process_command bare one_box (Message (Some "explode") None)
  = (one_box, Failure "Unknown command: explode").
Proof. apply (@C7_unknown_command bare). evaluated. Defined.








(** C2 does not hold of the code.  [b1] is a box and [beveled_b1] its
    bevel, whose 36 vertices are three per triangle.  A difference of the
    two on a host without boolean engine fails, every tier having raised;
    by then [process()] has merged the duplicate vertices of the stored
    [beveled_b1], which is left with 8 vertices. *)
Theorem C2_failed_boolean_operation_rewrites_operand :
  ∃ error,
    (@process_command bare box_and_bevel
       (boolean (<["operation" := VStr "difference"]> (operands "beveled_b1" "b1")))).2
    = Failure error
    ∧ vertex_count box_and_bevel "beveled_b1" = Some 36%nat
    ∧ vertex_count
        (@process_command bare box_and_bevel
           (boolean (<["operation" := VStr "difference"]>
                       (operands "beveled_b1" "b1")))).1
        "beveled_b1"
      = Some 8%nat.
Proof. eexists. split; [reflexivity|]. split; reflexivity. Qed.

(** C10 does not hold of boolean_operation.  The union of [beveled_b1] and
    [b1] succeeds and is stored under [r]; the entry [beveled_b1], another
    name, has gone from 36 vertices to 8 on the way. *)
Theorem C10_boolean_operation_rewrites_operand :
  is_success (@process_command bare box_and_bevel
                (boolean (operands "beveled_b1" "b1"))).2 = true
  ∧ vertex_count (@process_command bare box_and_bevel
                    (boolean (operands "beveled_b1" "b1"))).1 "r"
    = Some 16%nat
  ∧ vertex_count box_and_bevel "beveled_b1" = Some 36%nat
  ∧ vertex_count (@process_command bare box_and_bevel
                    (boolean (operands "beveled_b1" "b1"))).1 "beveled_b1"
    = Some 8%nat.
Proof. repeat split; reflexivity. Qed.

(** What C10 says of a store does hold of the store itself: a name that is
    taken is bound anew, with a success ... *)
Example store_over_existing_name :
  ∃ fields,
    @create_primitive bare one_box
      {[ "mesh_id" := VStr "b1"; "extents" := VList [VInt 2; VInt 2; VInt 2] ]}
    = (<["b1" := default (Toy.Build [] []) (two_boxes !! "b2")]> one_box,
       Success fields).
Proof. eexists. reflexivity. Qed.

(** ... and a generated name can be a name that is taken: after a delete
    the registry holds [mesh_1] alone, its size is 1, and the next box
    without a name of its own replaces [mesh_1]. *)
Example generated_name_collides :
  dom after_delete = {[ "mesh_1" ]}
  ∧ ∃ fields,
      @create_primitive bare after_delete
        {[ "extents" := VList [VInt 2; VInt 2; VInt 2] ]}
      = ({[ "mesh_1" := default (Toy.Build [] []) (two_boxes !! "b2") ]},
         Success (("mesh_id", FStr "mesh_1") :: fields)).
Proof. split; [reflexivity|]. eexists. reflexivity. Qed.

(** The order of C6 can be seen: moving by [1, 0, 0] and doubling in one
    command is not doubling first and moving afterwards. *)
Example translate_before_scale :
  ∃ one_command two_commands,
    transform one_box "b1" (moved ∪ doubled) !! "t" = Some one_command
    ∧ transform (transform one_box "b1" doubled) "t" moved !! "t" = Some two_commands
    ∧ Toy.same_vertices one_command two_commands = false.
Proof. do 2 eexists. split; [reflexivity|]. split; reflexivity. Qed.

(** ** Further properties of the handlers *)

Section Handlers.
Context `{K : Kernel}.
Implicit Types (reg : gmap string Mesh) (p : params) (data : message).

(** *** Outcomes of a store *)

Lemma store_or_fail_success reg key id built reg' fields :
  store_or_fail reg key id built = (reg', Success fields) →
  ∃ mesh, built = Ok mesh ∧ reg' = <[id := mesh]> reg
          ∧ Success fields = summary key id mesh.
Proof.
  unfold store_or_fail. destruct built as [mesh|e]; [|done].
  intros [= <- <-]. by exists mesh.
Qed.

Lemma store_or_fail_names reg key id built reg' resp :
  store_or_fail reg key id built = (reg', resp) →
  (is_success resp = false ∧ reg' = reg)
  ∨ (is_success resp = true ∧ dom reg' = {[id]} ∪ dom reg).
Proof.
  unfold store_or_fail. destruct built; intros [= <- <-]; [right|left]; [|done].
  split; [done|]. by rewrite dom_insert_L.
Qed.

Lemma answer_names reg r reg' resp :
  answer reg r = (reg', resp) → reg' = reg.
Proof. unfold answer. destruct r; by intros [= <- _]. Qed.

(** How the names of the registry can change in one command: not at all,
    by one name that a success has bound, or by one name that a successful
    delete_mesh has removed. *)
Lemma process_command_names reg data reg' resp :
  process_command reg data = (reg', resp) →
  dom reg' = dom reg
  ∨ (is_success resp = true ∧ ∃ id, dom reg' = {[id]} ∪ dom reg)
  ∨ (command data = Some "delete_mesh" ∧ is_success resp = true
     ∧ ∃ id, id ∈ dom reg ∧ dom reg' = dom reg ∖ {[id]}).
Proof.
  unfold process_command. cbv zeta.
  set (p := default ∅ (message_params data)).
  assert (Hstore : ∀ key id built,
    store_or_fail reg key id built = (reg', resp) →
    dom reg' = dom reg
    ∨ (is_success resp = true ∧ ∃ id, dom reg' = {[id]} ∪ dom reg)
    ∨ (command data = Some "delete_mesh" ∧ is_success resp = true
       ∧ ∃ id, id ∈ dom reg ∧ dom reg' = dom reg ∖ {[id]})).
  { intros key id built [[_ ->]|[Hs Hd]]%store_or_fail_names; [by left|].
    right; left; eauto. }
  repeat (let E := fresh "E" in case_decide as E).
  - unfold create_primitive. destruct (primitive _ _); [|intros [= <- <-]; by left].
    apply Hstore.
  - intros [(error & -> & Hdom)|(reg1 & res & Hdom & _ & -> & ->)]%boolean_operation_outcome;
      [by left|].
    right; left. split; [done|]. eexists. by rewrite dom_insert_L, Hdom.
  - apply Hstore.
  - unfold bevel_mesh. destruct (find _ _) as [[??]|]; [|intros [= <- <-]; by left].
    apply Hstore.
  - unfold get_mesh_info. destruct (find _ _) as [[??]|]; [|intros [= <- <-]; by left].
    intros ->%answer_names. by left.
  - unfold export_mesh. destruct (find _ _) as [[??]|]; [|intros [= <- <-]; by left].
    intros ->%answer_names. by left.
  - unfold save_mesh_file. destruct (find _ _) as [[??]|]; [|intros [= <- <-]; by left].
    intros ->%answer_names. by left.
  - intros [= <- <-]. by left.
  - unfold delete_mesh.
    destruct (find _ _) as [[id mesh]|] eqn:Ef; [|intros [= <- <-]; by left].
    intros [= <- <-]. right; right. split; [done|]. split; [done|].
    exists id. apply find_Some in Ef as [_ Hid]. split.
    + apply elem_of_dom. eauto.
    + apply dom_delete_L.
  - unfold transform_mesh. destruct (find _ _) as [[??]|]; [|intros [= <- <-]; by left].
    apply Hstore.
  - unfold create_complex_mesh. destruct (complex _ _); [|intros [= <- <-]; by left].
    apply Hstore.
  - intros [= <- <-]. by left.
Qed.


(** X3.  get_mesh_info, export_mesh, save_mesh_file and list_meshes leave
    the registry as it is, whether they succeed or fail. *)
Theorem readers_keep_registry reg data cmd :
  command data = Some cmd → cmd ∈ readers →
  (process_command reg data).1 = reg.
Proof.
  intros Hc Hin. unfold process_command. cbv zeta. rewrite Hc.
  set (p := default ∅ (message_params data)).
  unfold readers in Hin.
  repeat (apply elem_of_cons in Hin as [->|Hin]); [..|by apply elem_of_nil in Hin];
    repeat (let E := fresh "E" in case_decide as E); try done.
  - unfold get_mesh_info. destruct (find _ _) as [[??]|]; [|done].
    apply answer_registry.
  - unfold export_mesh. destruct (find _ _) as [[??]|]; [|done].
    apply answer_registry.
  - unfold save_mesh_file. destruct (find _ _) as [[??]|]; [|done].
    apply answer_registry.
Qed.

(** X4.  delete_mesh on a registered name succeeds and removes that one
    entry: the registry is one entry smaller, every other name is bound as
    before, the name no longer shows in list_meshes, and get_mesh_info or a
    second delete_mesh on it answer that the mesh is not found. *)
Theorem delete_mesh_forgets_the_name reg p id mesh :
  get_str p "mesh_id" = Some id → reg !! id = Some mesh →
  delete_mesh reg p
  = (delete id reg,
     Success [ ("message", FStr ("Mesh " +:+ id +:+ " deleted successfully")) ])
  ∧ S (size (delete id reg)) = size reg
  ∧ (∀ k, k ≠ id → delete id reg !! k = reg !! k)
  ∧ (id ∉ names (list_meshes (delete id reg)).2)
  ∧ get_mesh_info (delete id reg) p = (delete id reg, Failure "Mesh not found")
  ∧ delete_mesh (delete id reg) p = (delete id reg, Failure "Mesh not found").
Proof.
  intros Hid Hreg.
  assert (Hgone : find (delete id reg) (get_str p "mesh_id") = None).
  { rewrite Hid. simpl. by rewrite lookup_delete_eq. }
  repeat split.
  - unfold delete_mesh. rewrite Hid. simpl. by rewrite Hreg.
  - rewrite map_size_delete_Some by eauto.
    assert (size reg ≠ 0)%nat; [|lia].
    intros Hz%map_size_empty_iff. by rewrite Hz in Hreg.
  - intros k Hk. by apply lookup_delete_ne.
  - unfold names. simpl. intros Hin.
    apply list_elem_of_fmap in Hin as ([[[k v] f] b] & -> & Hin).
    apply list_elem_of_fmap in Hin as ([k' mesh'] & [= <- _ _ _] & Hin).
    apply elem_of_map_to_list in Hin. by rewrite lookup_delete_eq in Hin.
  - unfold get_mesh_info. by rewrite Hgone.
  - unfold delete_mesh. by rewrite Hgone.
Qed.


(** *** What a response says of the registry *)

Lemma reported_summary key id mesh fields :
  key = "mesh_id" ∨ key = "result_id" →
  Success fields = summary key id mesh →
  reported fields = Some (id, n_vertices mesh, n_faces mesh).
Proof. intros [-> | ->] [= ->]; reflexivity. Qed.

Lemma stored_as_reported reg key id built reg' fields name v f :
  key = "mesh_id" ∨ key = "result_id" →
  store_or_fail reg key id built = (reg', Success fields) →
  reported fields = Some (name, v, f) →
  ∃ mesh, reg' !! name = Some mesh ∧ n_vertices mesh = v ∧ n_faces mesh = f.
Proof.
  intros Hkey (mesh & _ & -> & Hsum)%store_or_fail_success Hrep.
  rewrite (reported_summary _ _ _ _ Hkey Hsum) in Hrep.
  injection Hrep as <- <- <-. exists mesh. by rewrite lookup_insert_eq.
Qed.

(** X6.  Whenever a command succeeds with a response that gives a mesh
    name (under [mesh_id] or [result_id]) with a vertex count and a face
    count, the registry after the command holds a mesh under that name
    with those counts. *)
Theorem response_reports_stored_mesh reg data reg' fields name v f :
  process_command reg data = (reg', Success fields) →
  reported fields = Some (name, v, f) →
  ∃ mesh, reg' !! name = Some mesh ∧ n_vertices mesh = v ∧ n_faces mesh = f.
Proof.
  unfold process_command. cbv zeta.
  set (p := default ∅ (message_params data)).
  repeat (let E := fresh "E" in case_decide as E).
  - unfold create_primitive. destruct (primitive _ _); [|done].
    apply stored_as_reported. by left.
  - intros [(error & [=] & _)|(reg1 & res & _ & _ & -> & Hsum)]%boolean_operation_outcome
      Hrep.
    rewrite (reported_summary _ _ _ _ (or_intror eq_refl) Hsum) in Hrep.
    injection Hrep as <- <- <-. exists res. by rewrite lookup_insert_eq.
  - apply stored_as_reported. by left.
  - unfold bevel_mesh. destruct (find _ _) as [[??]|]; [|done].
    apply stored_as_reported. by right.
  - unfold get_mesh_info. destruct (find _ _) as [[id mesh]|] eqn:Ef; [|done].
    apply find_Some in Ef as [_ Hid].
    destruct (volume mesh); [|done]. destruct (area mesh); [|done].
    destruct (is_watertight mesh); [|done]. destruct (center_mass mesh); [|done].
    intros [= <- <-] [= <- <- <-]. eauto.
  - unfold export_mesh. destruct (find _ _) as [[id mesh]|]; [|done].
    destruct (export_b64 _ _); [|done]. by intros [= <- <-] [=].
  - unfold save_mesh_file. destruct (find _ _) as [[id mesh]|]; [|done].
    destruct (makedirs _); [|done]. simpl.
    destruct (export_file _ _); [|done]. simpl.
    destruct (getsize _); [|done]. by intros [= <- <-] [=].
  - by intros [= <- <-] [=].
  - unfold delete_mesh. destruct (find _ _) as [[id mesh]|]; [|done].
    by intros [= <- <-] [=].
  - unfold transform_mesh. destruct (find _ _) as [[??]|]; [|done].
    apply stored_as_reported. by right.
  - unfold create_complex_mesh. destruct (complex _ _); [|done].
    apply stored_as_reported. by left.
  - done.
Qed.

(** *** The cascade of boolean_operation *)

(** X7.  The backend that answers a boolean operation is the first of
    manifold3d, Blender and trimesh, in this order, that does not raise,
    and when all three raise the exception that comes out is the one of
    trimesh, the last one.  Without Blender the second one always raises. *)
Theorem cascade_is_first_success mesh_a mesh_b operation :
  cascade mesh_a mesh_b operation
  = first_success (manifold_tier mesh_a mesh_b operation)
      [ blender_tier mesh_a mesh_b operation;
        trimesh_tier mesh_a mesh_b operation ]
  ∧ (blender_exists = false →
     cascade mesh_a mesh_b operation
     = first_success (manifold_tier mesh_a mesh_b operation)
         [ trimesh_tier mesh_a mesh_b operation ]).
Proof.
  rewrite cascade_tiers. unfold blender_then_trimesh. split.
  - simpl. destruct (manifold_tier _ _ _); [done|].
    destruct (blender_tier _ _ _); [done|].
    by destruct (trimesh_tier _ _ _).
  - intros Hno. unfold blender_tier. rewrite Hno. simpl.
    destruct (manifold_tier _ _ _); [done|].
    by destruct (trimesh_tier _ _ _).
Qed.

Lemma exhausted_failure reg p a b mesh_a mesh_b reg' mesh_a' mesh_b' e1 e2 e3 :
  let operation := default "union" (get_str p "operation") in
  get_str p "mesh_a" = Some a → reg !! a = Some mesh_a →
  get_str p "mesh_b" = Some b → reg !! b = Some mesh_b →
  normalize_operands reg a b mesh_a mesh_b = (reg', (mesh_a', mesh_b'), Ok ()) →
  manifold_tier mesh_a' mesh_b' operation = Raise e1 →
  blender_tier mesh_a' mesh_b' operation = Raise e2 →
  trimesh_tier mesh_a' mesh_b' operation = Raise e3 →
  operation ≠ "union" →
  boolean_operation reg p = (reg', Failure (boolean_failure operation (str e3))).
Proof.
  intros operation Ha Hma Hb Hmb Hn H1 H2 H3 Hu.
  pose proof (attempt_normalize _ _ _ _ _ operation _ _ _ Hn) as Hatt.
  simpl in Hatt. rewrite cascade_tiers in Hatt. unfold blender_then_trimesh in Hatt.
  rewrite H1, H2, H3 in Hatt. simpl in Hatt.
  rewrite (boolean_operation_found _ _ _ _ _ _ _ _ _ _ Ha Hma Hb Hmb Hatt).
  fold operation. unfold fallback. by rewrite decide_False.
Qed.

(** X8.  When the three backends all raise and the operation is not a
    union, the failure that boolean_operation answers with carries the
    text of the exception of the last backend, trimesh, between
    "Boolean <operation> failed: " and the remark on manifold3d; the
    exceptions of manifold3d and of Blender are not reported. *)
Theorem exhausted_cascade_reports_last_backend
    reg p a b mesh_a mesh_b reg' mesh_a' mesh_b' e1 e2 e3 :
  let operation := default "union" (get_str p "operation") in
  get_str p "mesh_a" = Some a → reg !! a = Some mesh_a →
  get_str p "mesh_b" = Some b → reg !! b = Some mesh_b →
  normalize_operands reg a b mesh_a mesh_b = (reg', (mesh_a', mesh_b'), Ok ()) →
  manifold_tier mesh_a' mesh_b' operation = Raise e1 →
  blender_tier mesh_a' mesh_b' operation = Raise e2 →
  trimesh_tier mesh_a' mesh_b' operation = Raise e3 →
  operation ≠ "union" →
  boolean_operation reg p = (reg', Failure (boolean_failure operation (str e3))).
Proof.
  intros operation Ha Hma Hb Hmb Hn H1 H2 H3 Hu.
  assert (Hc : cascade mesh_a' mesh_b' operation = Raise e3).
  { rewrite cascade_tiers. unfold blender_then_trimesh. by rewrite H1, H2, H3. }
  pose proof (attempt_normalize _ _ _ _ _ operation _ _ _ Hn) as Hatt.
  simpl in Hatt. rewrite Hc in Hatt. simpl in Hatt.
  rewrite (boolean_operation_found _ _ _ _ _ _ _ _ _ _ Ha Hma Hb Hmb Hatt).
  fold operation. unfold fallback. by rewrite decide_False.
Qed.

(** X9.  An operation that is none of union, difference and intersection,
    on a host without Blender: whatever manifold3d does, the command fails
    with "Unknown operation: <operation>" as the reported cause, and
    stores no result. *)
Theorem unknown_operation_without_blender
    reg p a b mesh_a mesh_b reg' mesh_a' mesh_b' operation :
  get_str p "operation" = Some operation →
  operation ∉ [ "union"; "difference"; "intersection" ] →
  blender_exists = false →
  get_str p "mesh_a" = Some a → reg !! a = Some mesh_a →
  get_str p "mesh_b" = Some b → reg !! b = Some mesh_b →
  normalize_operands reg a b mesh_a mesh_b = (reg', (mesh_a', mesh_b'), Ok ()) →
  boolean_operation reg p
  = (reg', Failure (boolean_failure operation ("Unknown operation: " +:+ operation)))
  ∧ dom reg' = dom reg.
Proof.
  intros Hop Hnot Hno Ha Hma Hb Hmb Hn.
  assert (Hu : operation ≠ "union") by (intros ->; apply Hnot; listed).
  assert (Hd : operation ≠ "difference") by (intros ->; apply Hnot; listed).
  assert (Hi : operation ≠ "intersection") by (intros ->; apply Hnot; listed).
  split; [|exact (normalize_operands_dom _ _ _ _ _ _ _ _ Hma Hmb Hn)].
  assert (H1 : ∃ e1, manifold_tier mesh_a' mesh_b' operation = Raise e1).
  { unfold manifold_tier.
    destruct import_manifold3d; simpl; [|by eexists].
    destruct (to_manifold mesh_a'); simpl; [|by eexists].
    destruct (to_manifold mesh_b'); simpl; [|by eexists].
    rewrite !decide_False by done. by eexists. }
  destruct H1 as [e1 H1].
  pose proof (exhausted_failure reg p a b mesh_a mesh_b reg' mesh_a' mesh_b'
                e1 (Exception "Blender not available")
                (Exception ("Unknown operation: " +:+ operation))) as Hex.
  rewrite Hop in Hex. simpl in Hex. apply Hex; try done.
  - unfold blender_tier. by rewrite Hno.
  - unfold trimesh_tier. by rewrite !decide_False.
Qed.


(** *** A store and a delete *)

(** X11.  A create_primitive, extrude or create_complex_mesh that succeeds
    under a name of the caller's, followed by a delete_mesh of that name:
    the delete succeeds, and the registry is again what it was before the
    two commands when the name was free; when the name was taken, what it
    was bound to is lost, the name being free afterwards. *)
Theorem delete_undoes_a_store_under_a_free_name reg data cmd id reg' fields p :
  command data = Some cmd → cmd ∈ creators →
  get_str (default ∅ (message_params data)) "mesh_id" = Some id →
  process_command reg data = (reg', Success fields) →
  get_str p "mesh_id" = Some id →
  is_success (delete_mesh reg' p).2 = true
  ∧ (delete_mesh reg' p).1 = delete id reg
  ∧ (reg !! id = None → (delete_mesh reg' p).1 = reg)
  ∧ (delete_mesh reg' p).1 !! id = None.
Proof.
  intros Hc Hin Hid Hrun Hp.
  assert (Hstored : ∃ mesh, reg' = <[id := mesh]> reg).
  { revert Hrun. unfold process_command. cbv zeta. rewrite Hc.
    unfold creators in Hin.
    repeat (apply elem_of_cons in Hin as [->|Hin]); [..|by apply elem_of_nil in Hin];
      repeat (let E := fresh "E" in case_decide as E); try done.
    - unfold create_primitive. rewrite Hid. simpl.
      destruct (primitive _ _); [|done].
      intros (mesh & _ & -> & _)%store_or_fail_success. eauto.
    - unfold extrude_mesh. rewrite Hid. simpl.
      intros (mesh & _ & -> & _)%store_or_fail_success. eauto.
    - unfold create_complex_mesh. rewrite Hid. simpl.
      destruct (complex _ _); [|done].
      intros (mesh & _ & -> & _)%store_or_fail_success. eauto. }
  destruct Hstored as [mesh ->].
  unfold delete_mesh. rewrite Hp. simpl. rewrite lookup_insert_eq. simpl.
  rewrite delete_insert_eq. repeat split.
  - intros Hfree. by apply delete_id.
  - apply lookup_delete_eq.
Qed.

(** *** transform_mesh and bevel at the edges *)

(** X12.  A [scale] that is a list of fewer than three entries makes
    transform_mesh fail, and the registry is left as it was. *)
Theorem short_scale_vector_fails reg p l :
  p !! "scale" = Some (VList l) → (length l < 3)%nat →
  ∃ error, transform_mesh reg p = (reg, Failure error).
Proof.
  intros Hs Hl. unfold transform_mesh.
  destruct (find _ _) as [[id stored]|]; [|by eexists].
  assert (Hraise : ∀ mesh, ∃ e, scale_step p mesh = Raise e).
  { intros mesh. unfold scale_step. rewrite Hs. simpl.
    destruct l as [|x [|y [|z l]]]; simpl in *; try lia; by eexists. }
  unfold transformed.
  destruct (translate_step _ _) as [m1|e]; simpl; [|by eexists].
  destruct (rotate_step _ _) as [m2|e]; simpl; [|by eexists].
  destruct (Hraise m2) as [e ->]. by eexists.
Qed.

(** X13.  A bevel distance that is not a number makes bevel fail, and the
    registry is left as it was. *)
Theorem bevel_distance_must_be_a_number reg p :
  scalar_of (get p "distance" (VFloat (1 # 10))) = None →
  ∃ error, bevel_mesh reg p = (reg, Failure error).
Proof.
  intros Hd. unfold bevel_mesh.
  destruct (find _ _) as [[id mesh]|]; [|by eexists].
  unfold beveled, num_of. rewrite Hd.
  destruct (smoothed mesh); by eexists.
Qed.

Lemma length_append (s t : string) :
  String.length (s +:+ t) = (String.length s + String.length t)%nat.
Proof. induction s; simpl; [done|]. by rewrite IHs. Qed.

Lemma prefixed_name_differs (prefix id : string) :
  prefix ≠ "" → prefix +:+ id ≠ id.
Proof.
  intros Hp Heq%(f_equal String.length). rewrite length_append in Heq.
  destruct prefix; [done|]. simpl in Heq. lia.
Qed.

(** X14.  bevel and transform_mesh without a [result_id] of the caller's
    name their result after the source, with a prefix, and so never
    replace the source: it is bound afterwards as it was before. *)
Theorem default_result_name_spares_the_source reg p id :
  get_str p "mesh_id" = Some id → get_str p "result_id" = None →
  (bevel_mesh reg p).1 !! id = reg !! id
  ∧ (transform_mesh reg p).1 !! id = reg !! id.
Proof.
  intros Hid Hres. unfold bevel_mesh, transform_mesh. rewrite Hid, Hres. simpl.
  destruct (reg !! id) as [mesh|] eqn:Hreg; simpl; [|by rewrite Hreg].
  split; (rewrite store_or_fail_frame; [done|]);
    apply not_eq_sym, prefixed_name_differs; discriminate.
Qed.

(** *** The file name of save_mesh_file *)

Lemma rev_app_append (s1 s2 s3 : string) :
  String.rev_app s1 (s2 +:+ s3) = String.rev_app s1 s2 +:+ s3.
Proof.
  revert s2. induction s1 as [|c s1 IH]; intros s2; simpl; [done|].
  apply (IH (String c s2)).
Qed.

Lemma rev_app_app (s1 s2 acc : string) :
  String.rev_app (s1 +:+ s2) acc = String.rev_app s2 (String.rev_app s1 acc).
Proof. revert acc. induction s1 as [|c s1 IH]; intros acc; simpl; [done|]. apply IH. Qed.

Lemma rev_append (s1 s2 : string) :
  String.rev (s1 +:+ s2) = String.rev s2 +:+ String.rev s1.
Proof. unfold String.rev. rewrite rev_app_app. apply (rev_app_append s2 ""). Qed.

Lemma prefix_append (s t : string) : String.prefix s (s +:+ t) = true.
Proof.
  induction s as [|c s IH]; simpl; [by destruct t|].
  by destruct (Ascii.ascii_dec c c).
Qed.

Lemma endswith_append (s suffix : string) : endswith (s +:+ suffix) suffix = true.
Proof. unfold endswith. rewrite rev_append. apply prefix_append. Qed.

Lemma file_name_nonempty filename id format_type :
  file_name filename id format_type ≠ "".
Proof.
  destruct filename as [[|c f]|]; simpl; try by destruct id.
  by destruct (endswith _ _).
Qed.

(** X15.  The file name save_mesh_file writes to always ends with a dot
    and the format; a name of the caller's that ends so already is taken
    as it is; and the name that comes out, given again, comes out
    unchanged. *)
Theorem file_name_ends_with_the_format filename id format_type :
  endswith (file_name filename id format_type) ("." +:+ format_type) = true
  ∧ (∀ f, filename = Some f → f ≠ "" →
       endswith f ("." +:+ format_type) = true →
       file_name filename id format_type = f)
  ∧ file_name (Some (file_name filename id format_type)) id format_type
    = file_name filename id format_type.
Proof.
  assert (Hends : endswith (file_name filename id format_type)
                    ("." +:+ format_type) = true).
  { destruct filename as [[|c f]|]; simpl; try apply endswith_append.
    destruct (endswith (String c f) _) eqn:E; [done|]. apply (endswith_append (String c f)). }
  assert (Hkept : ∀ f, f ≠ "" → endswith f ("." +:+ format_type) = true →
                       file_name (Some f) id format_type = f).
  { intros [|c f] Hne He; [done|]. simpl in *. by rewrite He. }
  repeat split; [done| |].
  - intros f -> Hne He. by apply Hkept.
  - apply Hkept; [apply file_name_nonempty|done].
Qed.

(** *** The faces of the torus *)

Lemma length_bind_const {A B} (f : A → list B) (l : list A) n :
  (∀ x, length (f x) = n) → length (l ≫= f) = (length l * n)%nat.
Proof.
  intros Hf. induction l as [|x l IH]; [done|].
  rewrite bind_cons, length_app, Hf, IH. simpl. lia.
Qed.

Lemma length_range n : length (range n) = Z.to_nat n.
Proof. unfold range. by rewrite length_fmap, length_seq. Qed.

Lemma elem_of_range i n : i ∈ range n ↔ (0 ≤ i < n)%Z.
Proof.
  unfold range. rewrite list_elem_of_fmap. split.
  - intros (k & -> & Hk%elem_of_seq). lia.
  - intros Hi. exists (Z.to_nat i). split; [lia|]. apply elem_of_seq. lia.
Qed.

(** X16.  The triangles create_complex_mesh builds for a torus of [M] by
    [N] sections: there are 2 (M - 1) (N - 1) of them, none when either
    number is below 2, and every index in them is at least 0 and below
    M N, the number of points of the grid. *)
Theorem torus_faces_stay_in_the_grid (M N : Z) :
  length (torus_faces M N) = (2 * (Z.to_nat (M - 1) * Z.to_nat (N - 1)))%nat
  ∧ ((M ≤ 1 ∨ N ≤ 1)%Z → torus_faces M N = [])
  ∧ (∀ a b c, (a, b, c) ∈ torus_faces M N →
       (0 ≤ a < M * N ∧ 0 ≤ b < M * N ∧ 0 ≤ c < M * N)%Z).
Proof.
  assert (Hlen : length (torus_faces M N)
                 = (2 * (Z.to_nat (M - 1) * Z.to_nat (N - 1)))%nat).
  { unfold torus_faces.
    rewrite (length_bind_const _ _ (Z.to_nat (N - 1) * 2)), length_range; [lia|].
    intros i. rewrite (length_bind_const _ _ 2), length_range; done. }
  split; [done|]. split.
  - intros Hsmall. apply length_zero_iff_nil. rewrite Hlen. lia.
  - intros a b c H. unfold torus_faces in H.
    apply list_elem_of_bind in H as (i & H & Hi%elem_of_range).
    apply list_elem_of_bind in H as (j & H & Hj%elem_of_range).
    cbv zeta in H.
    apply elem_of_cons in H as [[= -> -> ->]|H]; [nia|].
    apply elem_of_cons in H as [[= -> -> ->]|H]; [nia|].
    by apply elem_of_nil in H.
Qed.

(** *** Generated names *)




(** *** The connection *)

Lemma handle_message_registry dumps reg f :
  (handle_message dumps reg f).1
  = match f with
    | Object data => (process_command reg data).1
    | _ => reg
    end.
Proof.
  destruct f as [| |data]; simpl; try done.
  destruct (process_command reg data) as [reg' resp]. by destruct (dumps resp).
Qed.

Lemma handle_client_cons dumps reg f rest :
  handle_client dumps reg (f :: rest)
  = ((handle_client dumps (handle_message dumps reg f).1 rest).1,
     (handle_message dumps reg f).2
     :: (handle_client dumps (handle_message dumps reg f).1 rest).2).
Proof.
  simpl. destruct (handle_message dumps reg f) as [reg1 sent]. simpl.
  by destruct (handle_client dumps reg1 rest).
Qed.

(** X18.  On a connection every message gets one answer, in the order of
    the messages; a message that is not JSON is answered with "Invalid JSON
    format"; the messages that are not JSON objects change nothing, the
    registry at the end being the one the objects alone lead to; and what
    [json.dumps] makes of a response has no part in the registry: a
    command whose response cannot be sent has been carried out all the
    same. *)
Theorem connection_answers_every_message dumps dumps' reg frames :
  length (handle_client dumps reg frames).2 = length frames
  ∧ (∀ i, frames !! i = Some Garbled →
       (handle_client dumps reg frames).2 !! i = Some (Error "Invalid JSON format"))
  ∧ (handle_client dumps reg frames).1
    = (handle_client dumps reg (filter (fun f => is_object f) frames)).1
  ∧ (handle_client dumps reg frames).1 = (handle_client dumps' reg frames).1.
Proof.
  revert reg. induction frames as [|f rest IH]; intros reg.
  { repeat split; try done. }
  destruct (IH (handle_message dumps reg f).1) as (IH1 & IH2 & IH3 & IH4).
  rewrite !handle_client_cons. simpl. repeat split.
  - by rewrite IH1.
  - intros [|i]; simpl; [by intros [= ->]|]. apply IH2.
  - destruct f as [| |data].
    + rewrite filter_cons_False by (simpl; auto). apply IH3.
    + rewrite filter_cons_False by (simpl; auto). apply IH3.
    + rewrite filter_cons_True by done. rewrite handle_client_cons. simpl. apply IH3.
  - rewrite IH4. f_equal. by rewrite !handle_message_registry.
Qed.

(** X19.  On a connection without a delete_mesh no name is lost: every
    name of the registry at the start is a name of the registry at the
    end. *)
Theorem connection_without_delete_keeps_names dumps reg frames :
  (∀ f, f ∈ frames → ¬ deletes f) →
  dom reg ⊆ dom (handle_client dumps reg frames).1.
Proof.
  revert reg. induction frames as [|f rest IH]; intros reg Hno; [done|].
  rewrite handle_client_cons. simpl.
  etrans; [|apply IH; intros g Hg; apply Hno; by apply list_elem_of_further].
  rewrite handle_message_registry.
  assert (Hf : ¬ deletes f) by (apply Hno; apply list_elem_of_here).
  destruct f as [| |data]; [done..|]. simpl in Hf.
  destruct (process_command reg data) as [reg' resp] eqn:E. simpl.
  apply process_command_names in E
    as [Hd|[(_ & id & Hd)|(Hc & _)]]; [by rewrite Hd|set_solver|done].
Qed.

End Handlers.

(** ** The further properties at work on the small kernel *)

Import Dialogue.


Lemma readers_keep_registry_witness :
  (@process_command bare one_box (command_of "save_mesh_file" on_b1)).1 = one_box.
Proof.
  apply (@readers_keep_registry bare one_box _ "save_mesh_file").
  - reflexivity.
  - vm_compute. listed.
Defined.

Lemma delete_mesh_forgets_the_name_witness :
  S (size (delete "b1" two_boxes)) = size two_boxes
  ∧ @get_mesh_info bare (delete "b1" two_boxes) on_b1
    = (delete "b1" two_boxes, Failure "Mesh not found").
Proof.
  edestruct (@delete_mesh_forgets_the_name bare two_boxes on_b1 "b1")
    as (_ & Hsize & _ & _ & Hinfo & _); [reflexivity..|].
  split; [exact Hsize|exact Hinfo].
Defined.

Lemma response_reports_stored_mesh_witness :
  ∃ mesh, one_box !! "b1" = Some mesh
          ∧ @n_vertices bare mesh = 8%nat ∧ @n_faces bare mesh = 12%nat.
Proof.
  eapply (@response_reports_stored_mesh bare ∅ (command_of "create_primitive" on_b1)
            one_box).
  - reflexivity.
  - reflexivity.
Defined.

Lemma exhausted_cascade_reports_last_backend_witness :
  ∃ reg',
    @boolean_operation bare two_boxes
      (<["operation" := VStr "difference"]> (operands "b1" "b2"))
    = (reg', Failure (boolean_failure "difference"
                        "No backends available for boolean operations!")).
Proof.
  eexists.
  refine (@exhausted_cascade_reports_last_backend bare two_boxes
            (<["operation" := VStr "difference"]> (operands "b1" "b2"))
            "b1" "b2" _ _ _ _ _ _ _
            (Exception "No backends available for boolean operations!")
            _ _ _ _ _ _ _ _ _); try reflexivity.
  vm_compute. discriminate.
Defined.

Lemma unknown_operation_without_blender_witness :
  ∃ reg',
    @boolean_operation bare two_boxes
      (<["operation" := VStr "xor"]> (operands "b1" "b2"))
    = (reg', Failure (boolean_failure "xor" "Unknown operation: xor"))
    ∧ dom reg' = dom two_boxes.
Proof.
  eexists.
  refine (@unknown_operation_without_blender bare two_boxes
            (<["operation" := VStr "xor"]> (operands "b1" "b2"))
            "b1" "b2" _ _ _ _ _ "xor" _ _ _ _ _ _ _ _); try reflexivity.
  evaluated.
Defined.


Lemma delete_undoes_a_store_under_a_free_name_witness :
  (@delete_mesh bare two_boxes {[ "mesh_id" := VStr "b2" ]}).1 = one_box.
Proof.
  edestruct (@delete_undoes_a_store_under_a_free_name bare one_box
               (command_of "create_primitive"
                  {[ "mesh_id" := VStr "b2";
                     "extents" := VList [VInt 2; VInt 2; VInt 2] ]})
               "create_primitive" "b2" two_boxes)
    as (_ & _ & Hback & _); [| | | | |apply Hback].
  - reflexivity.
  - vm_compute. listed.
  - reflexivity.
  - reflexivity.
  - reflexivity.
  - reflexivity.
Defined.

Lemma short_scale_vector_fails_witness :
  ∃ error,
    @transform_mesh bare one_box (<["scale" := VList [VInt 2; VInt 2]]> on_b1)
    = (one_box, Failure error).
Proof.
  apply (@short_scale_vector_fails bare one_box _ [VInt 2; VInt 2]).
  - reflexivity.
  - simpl. lia.
Defined.

Lemma bevel_distance_must_be_a_number_witness :
  ∃ error,
    @bevel_mesh bare one_box (<["distance" := VStr "wide"]> on_b1)
    = (one_box, Failure error).
Proof.
  apply (@bevel_distance_must_be_a_number bare one_box). reflexivity.
Defined.

Lemma default_result_name_spares_the_source_witness :
  (@bevel_mesh bare one_box on_b1).1 !! "b1" = one_box !! "b1"
  ∧ (@transform_mesh bare one_box on_b1).1 !! "b1" = one_box !! "b1".
Proof.
  apply (@default_result_name_spares_the_source bare one_box on_b1 "b1");
    reflexivity.
Defined.


Lemma connection_without_delete_keeps_names_witness :
  dom one_box ⊆ dom (@handle_client bare plain_dumps one_box three_frames).1.
Proof.
  apply (@connection_without_delete_keeps_names bare plain_dumps one_box three_frames).
  intros f Hin. unfold three_frames in Hin.
  repeat (apply elem_of_cons in Hin as [->|Hin]); simpl;
    [tauto|discriminate|tauto|by apply elem_of_nil in Hin].
Defined.
